(** * md-to-ipynb: the cell segmentation of [splitIntoNotebookCells]

    A shallow embedding of [splitIntoNotebookCells] (src/md-to-ipynb.js,
    lines 28-122) and the properties of the segmentation that the
    specification states about it.

    JavaScript strings are sequences of UTF-16 code units; a code unit is
    modelled as an [N], a string as a list of them.  The string methods the
    function calls ([split], [trim], [startsWith], [slice], [===], [+]) are
    embedded one by one in [Module JS]. *)

From Stdlib Require Import List PeanoNat NArith Bool String Ascii Lia.
Import ListNotations.

Local Open Scope string_scope.
Local Open Scope list_scope.
Local Open Scope N_scope.

(* ================================================================== *)
(** ** JavaScript strings *)
(* ================================================================== *)

Module JS.

Definition jsstring := list N.

(** A string literal of the source, code unit by code unit. *)
Fixpoint js (s : string) : jsstring :=
  match s with
  | EmptyString => []
  | String a s' => N_of_ascii a :: js s'
  end.

(** ['\n'] *)
Definition LF : N := 10.

(** The characters [String.prototype.trim] strips: WhiteSpace (TAB, VT, FF,
    SP, NBSP, ZWNBSP and the category Zs) and LineTerminator (LF, CR, LS,
    PS). *)
Definition isWhiteSpace (c : N) : bool :=
  ((9 <=? c) && (c <=? 13))
  || (c =? 32) || (c =? 160) || (c =? 5760)
  || ((8192 <=? c) && (c <=? 8202))
  || (c =? 8232) || (c =? 8233) || (c =? 8239) || (c =? 8287)
  || (c =? 12288) || (c =? 65279).

Fixpoint trimStart (s : jsstring) : jsstring :=
  match s with
  | [] => []
  | c :: s' => if isWhiteSpace c then trimStart s' else s
  end.

Definition trimEnd (s : jsstring) : jsstring := rev (trimStart (rev s)).

(** [s.trim()] *)
Definition trim (s : jsstring) : jsstring := trimEnd (trimStart s).

(** A string used as a condition: the empty string is the only falsy one. *)
Definition truthy (s : jsstring) : bool :=
  match s with
  | [] => false
  | _ :: _ => true
  end.

(** [s.startsWith(p)] *)
Fixpoint startsWith (s p : jsstring) {struct p} : bool :=
  match p with
  | [] => true
  | c :: p' =>
      match s with
      | [] => false
      | d :: s' => (d =? c) && startsWith s' p'
      end
  end.

(** [s.slice(n)] for a non-negative [n]. *)
Definition slice (n : nat) (s : jsstring) : jsstring := skipn n s.

(** [s === t] on strings. *)
Fixpoint strictEq (s t : jsstring) : bool :=
  match s, t with
  | [], [] => true
  | c :: s', d :: t' => (c =? d) && strictEq s' t'
  | _, _ => false
  end.

(** [s.split('\n')]: the pieces between the line feeds; a string without
    line feed (the empty one too) is its own single piece. *)
Fixpoint split_nl (s : jsstring) : list jsstring :=
  match s with
  | [] => [[]]
  | c :: s' =>
      if c =? LF then [] :: split_nl s'
      else match split_nl s' with
           | [] => [[c]]
           | l :: ls => (c :: l) :: ls
           end
  end.

End JS.

Import JS.

(* ================================================================== *)
(** ** Notebook cells and the scan *)
(* ================================================================== *)

(** [cell_type] of a notebook cell. *)
Inductive cellType := markdown | code.

(** A cell object.  The other fields of the objects the source builds are
    constants fixed by [cell_type] ([metadata: {}] for markdown;
    [execution_count: null], [metadata: {tags: []}], [outputs: []] for
    code) and are not represented. *)
Record cell := mkCell { cell_type : cellType; source : list jsstring }.

(** [line => line + '\n'] *)
Definition addNl (line : jsstring) : jsstring := line ++ [LF].

(** [b.split('\n').map(line => line + '\n')] *)
Definition sourceLines (b : jsstring) : list jsstring :=
  map addNl (split_nl b).

(** The [```] of the fence test. *)
Definition fence : jsstring := [96; 96; 96].

(** The [#] of the header test. *)
Definition hash : jsstring := [35].

Definition python : jsstring := js "python".

(** The variables of [splitIntoNotebookCells] that live across the loop. *)
Record state := mkState {
  cells : list cell;
  currentCell : jsstring;
  inCodeBlock : bool;
  codeBlockLang : jsstring
}.

Definition init : state :=
  {| cells := []; currentCell := []; inCodeBlock := false;
     codeBlockLang := [] |}.

(** [if (currentCell.trim()) { cells.push({markdown ...}) }]: the cells
    this guarded push adds. *)
Definition flush (b : jsstring) : list cell :=
  if truthy (trim b) then [mkCell markdown (sourceLines b)] else [].

(** One iteration of the [for] loop, on [line = lines[i]]. *)
Definition step (st : state) (line : jsstring) : state :=
  if startsWith line fence then
    if negb (inCodeBlock st) then
      (* start of a code block *)
      {| cells := cells st ++ flush (currentCell st);
         currentCell :=
           if truthy (trim (currentCell st)) then [] else currentCell st;
         inCodeBlock := true;
         codeBlockLang := trim (slice 3 line) |}
    else
      (* end of a code block *)
      let cellType :=
        if strictEq (codeBlockLang st) python then code else markdown in
      {| cells :=
           cells st ++
           [match cellType with
            | code => mkCell code (sourceLines (currentCell st))
            | markdown =>
                mkCell markdown
                  ((fence ++ codeBlockLang st ++ [LF])
                   :: sourceLines (currentCell st) ++ [fence ++ [LF]])
            end];
         currentCell := [];
         inCodeBlock := false;
         codeBlockLang := codeBlockLang st |}
  else if negb (inCodeBlock st) && startsWith line hash then
    {| cells := cells st ++ flush (currentCell st);
       currentCell := line ++ [LF];
       inCodeBlock := inCodeBlock st;
       codeBlockLang := codeBlockLang st |}
  else
    {| cells := cells st;
       currentCell := currentCell st ++ line ++ [LF];
       inCodeBlock := inCodeBlock st;
       codeBlockLang := codeBlockLang st |}.

(** The loop over [lines], from the state [st]. *)
Definition scan (lines : list jsstring) (st : state) : state :=
  fold_left step lines st.

(** [splitIntoNotebookCells(markdown)] *)
Definition splitIntoNotebookCells (markdown : jsstring) : list cell :=
  let st := scan (split_nl markdown) init in
  cells st ++ flush (currentCell st).

(** A document written as its lines, joined with line feeds. *)
Fixpoint joinNl (ls : list jsstring) : jsstring :=
  match ls with
  | [] => []
  | [l] => l
  | l :: ls' => l ++ LF :: joinNl ls'
  end.

Definition doc (ls : list string) : jsstring := joinNl (map js ls).

(** A [source] array written as its elements without their final line
    feed: [withNl ["a"; ""]] is the array [["a\n", "\n"]]. *)
Definition withNl (ls : list string) : list jsstring :=
  map (fun l => addNl (js l)) ls.

(* ================================================================== *)
(** ** Notions used to state the properties *)
(* ================================================================== *)

(** A line holds no line feed. *)
Definition nlFree (l : jsstring) : Prop := ~ In LF l.

(** The buffer that appending [line + '\n'] for each of [pend] builds. *)
Definition joinLines (pend : list jsstring) : jsstring :=
  List.concat (map addNl pend).

(** [s.trim()] is the empty string. *)
Definition isBlank (s : jsstring) : bool := negb (truthy (trim s)).

Definition notFence (l : jsstring) : Prop := startsWith l fence = false.

(** The buffer after the guarded push. *)
Definition keepBlank (b : jsstring) : jsstring :=
  if truthy (trim b) then [] else b.

(** The cell pushed when a fence closes, from the recorded tag and the
    buffer. *)
Definition closeCell (lang b : jsstring) : cell :=
  if strictEq lang python then mkCell code (sourceLines b)
  else mkCell markdown
         ((fence ++ lang ++ [LF]) :: sourceLines b ++ [fence ++ [LF]]).

(** The buffer is made of whole lines: it is the lines [pend], each with
    its line feed. *)
Definition wholeLines (b : jsstring) (pend : list jsstring) : Prop :=
  Forall nlFree pend /\ b = joinLines pend.


(** The three ways a cell is built, from the lines [pend] of the buffer. *)
Inductive cellShape (c : cell) : Prop :=
| flushedShape (pend : list jsstring) :
    Forall nlFree pend -> forallb isBlank pend = false ->
    c = mkCell markdown (map addNl pend ++ [[LF]]) -> cellShape c
| codeShape (pend : list jsstring) :
    Forall nlFree pend ->
    c = mkCell code (map addNl pend ++ [[LF]]) -> cellShape c
| demotedShape (tag : jsstring) (pend : list jsstring) :
    Forall nlFree pend ->
    c = mkCell markdown
          ((fence ++ tag ++ [LF])
           :: map addNl pend ++ [[LF]; fence ++ [LF]]) ->
    cellShape c.

(** The content of a cell is white space only. *)
Definition blankContent (src : list jsstring) : bool := forallb isBlank src.

(** A line that is no fence delimiter and is not blank. *)
Definition keptLine (l : jsstring) : bool :=
  negb (startsWith l fence) && negb (isBlank l).

(** The content lines of all the cells, in the order of the cells. *)
Definition contentLines (cs : list cell) : list jsstring :=
  flat_map source cs.

(** The kept lines of the cells and of the buffer are the kept lines read
    so far. *)
Definition covers (done : list jsstring) (st : state) : Prop :=
  exists pend,
    wholeLines (currentCell st) pend
    /\ filter keptLine (contentLines (cells st))
       ++ map addNl (filter keptLine pend)
       = map addNl (filter keptLine done).

(** Cells written with [withNl]. *)
Definition md (ls : list string) : cell := mkCell markdown (withNl ls).
Definition py (ls : list string) : cell := mkCell code (withNl ls).

(** ["Intro\n```python\nprint(1)\n```\nEnd\n"] *)
Definition example2 : jsstring :=
  doc ["Intro"; "```python"; "print(1)"; "```"; "End"; ""].

(** ["```bash\necho hi\n```\n"] *)
Definition example3 : jsstring := doc ["```bash"; "echo hi"; "```"; ""].

(* ================================================================== *)
(** ** The rest of the script: file names, the notebook, the run *)
(* ================================================================== *)

(** The string ends with [.md]: the test of the regular expression
    [/\.md$/], whose [$] (without the [m] flag) is the end of the string. *)
Definition endsWithMd (s : jsstring) : bool :=
  strictEq (skipn (List.length s - 3) s) (js ".md").

(** [inputFile.replace(/\.md$/, '.ipynb')] *)
Definition replaceMdSuffix (inputFile : jsstring) : jsstring :=
  if endsWithMd inputFile
  then firstn (List.length inputFile - 3) inputFile ++ js ".ipynb"
  else inputFile.

Record kernelspecInfo := mkKernelspec {
  display_name : jsstring;
  language : jsstring;
  kernel_name : jsstring
}.

Record codemirrorMode := mkCodemirrorMode {
  mode_name : jsstring;
  mode_version : N
}.

Record languageInfo := mkLanguageInfo {
  codemirror_mode : codemirrorMode;
  file_extension : jsstring;
  mimetype : jsstring;
  language_name : jsstring;
  nbconvert_exporter : jsstring;
  pygments_lexer : jsstring;
  language_version : jsstring
}.

Record notebookMetadata := mkMetadata {
  kernelspec : kernelspecInfo;
  language_info : languageInfo
}.

(** The [notebook] object of lines 126-149. *)
Record notebook := mkNotebook {
  notebook_cells : list cell;
  metadata : notebookMetadata;
  nbformat : N;
  nbformat_minor : N
}.

Definition notebookOf (notebookCells : list cell) : notebook :=
  {| notebook_cells := notebookCells;
     metadata :=
       {| kernelspec :=
            {| display_name := js "Python 3";
               language := js "python";
               kernel_name := js "python3" |};
          language_info :=
            {| codemirror_mode :=
                 {| mode_name := js "ipython"; mode_version := 3 |};
               file_extension := js ".py";
               mimetype := js "text/x-python";
               language_name := js "python";
               nbconvert_exporter := js "python";
               pygments_lexer := js "ipython3";
               language_version := js "3.8.0" |} |};
     nbformat := 4;
     nbformat_minor := 4 |}.

(** What the script takes from its environment: the calls of [fs] ([None]
    and [false] stand for a call that throws) and [JSON.stringify(_, null,
    2)], which is not modelled. *)
Record world := mkWorld {
  existsSync : jsstring -> bool;
  readFileSync : jsstring -> option jsstring;
  writeFileSync : jsstring -> jsstring -> bool;
  stringify : notebook -> jsstring
}.

(** How a run of the script ends. *)
Inductive outcome :=
| ExitError (message : jsstring)
    (* console.error(message); process.exit(1) *)
| Thrown
    (* a call of fs threw *)
| Converted (outputFile content message : jsstring).
    (* fs.writeFileSync(outputFile, content); console.log(message) *)

(** The top level of the script, on [process.argv]. *)
Definition main (w : world) (argv : list jsstring) : outcome :=
  if Nat.ltb (List.length argv) 3 then
    ExitError (js "Usage: node md-to-ipynb.js <markdown-file> [output-file]")
  else
    let inputFile := nth 2 argv [] in
    let outputFile :=
      if Nat.ltb 3 (List.length argv) then nth 3 argv []
      else replaceMdSuffix inputFile in
    if negb (existsSync w inputFile) then
      ExitError (js "Error: File '" ++ inputFile ++ js "' does not exist.")
    else
      match readFileSync w inputFile with
      | None => Thrown
      | Some markdownContent =>
          let notebookCells := splitIntoNotebookCells markdownContent in
          let content := stringify w (notebookOf notebookCells) in
          if writeFileSync w outputFile content then
            Converted outputFile content
              (js "Successfully converted '" ++ inputFile ++ js "' to '"
               ++ outputFile ++ js "'")
          else Thrown
      end.

(** A world with the one file [notes.txt], in which every write returns. *)
Definition sampleWorld : world :=
  {| existsSync := fun f => strictEq f (js "notes.txt");
     readFileSync :=
       fun f => if strictEq f (js "notes.txt")
                then Some (doc ["# T"; "text"]) else None;
     writeFileSync := fun _ _ => true;
     stringify := fun nb => List.concat (flat_map source (notebook_cells nb)) |}.

(* ================================================================== *)
(** ** More notions for the properties of the scan *)
(* ================================================================== *)

(** A line that is neither a fence delimiter nor a header. *)
Definition plainLine (l : jsstring) : Prop :=
  startsWith l fence = false /\ startsWith l hash = false.

(** The line is a fence delimiter: the test of line 41. *)
Definition fenceLine (l : jsstring) : bool := startsWith l fence.

(** The lines that are no fence delimiter, in their order. *)
Definition bodyLines (lines : list jsstring) : list jsstring :=
  filter (fun l => negb (fenceLine l)) lines.

(** A run of consecutive source lines that are no fence delimiter: pending
    text, or the body of a fenced block with its recorded tag. *)
Inductive piece :=
| Pending (ls : list jsstring)
| Block (tag : jsstring) (ls : list jsstring).

Definition pieceLines (p : piece) : list jsstring :=
  match p with
  | Pending ls => ls
  | Block _ ls => ls
  end.

(** The cell a piece makes: its lines, each with a line feed, and one more
    element ["\n"]; for a block that is not python, that between the
    rebuilt fence lines; and no cell for pending text that is white space
    only. *)
Definition pieceCells (p : piece) : list cell :=
  match p with
  | Pending ls =>
      if forallb (forallb isWhiteSpace) ls then []
      else [mkCell markdown (map addNl ls ++ [[LF]])]
  | Block tag ls =>
      [if strictEq tag (js "python")
       then mkCell code (map addNl ls ++ [[LF]])
       else mkCell markdown
              ([fence ++ tag ++ [LF]]
               ++ (map addNl ls ++ [[LF]]) ++ [fence ++ [LF]])]
  end.

(** The lines read that are no fence delimiter are the lines of the pieces
    closed so far and then the pending lines of the buffer, and the cells
    pushed are the cells of those pieces. *)
Definition pieced (done : list jsstring) (st : state) : Prop :=
  exists pieces pend,
    wholeLines (currentCell st) pend
    /\ flat_map pieceLines pieces ++ pend = bodyLines done
    /\ cells st = flat_map pieceCells pieces.

(** An element of a content array that is one line and its line feed. *)
Definition lineElement (e : jsstring) : Prop :=
  exists l, nlFree l /\ e = l ++ [LF].

(** Two states that differ by cells pushed earlier, and by a recorded tag
    that will not be read. *)
Definition shifted (C : list cell) (st st' : state) : Prop :=
  cells st = C ++ cells st'
  /\ currentCell st = currentCell st'
  /\ inCodeBlock st = inCodeBlock st'
  /\ (inCodeBlock st = true -> codeBlockLang st = codeBlockLang st').

(** The cells pushed, one more for a buffer that is not blank, one more
    inside a fence. *)
Definition weight (st : state) : nat :=
  (List.length (cells st)
   + (if isBlank (currentCell st) then 0 else 1)
   + (if inCodeBlock st then 1 else 0))%nat.

(* ================================================================== *)
(** ** Facts about the string methods *)
(* ================================================================== *)

Section StringFacts.

Lemma split_nl_not_nil (s : jsstring) : split_nl s <> [].
Proof.
  destruct s as [|c s]; simpl; [discriminate|].
  destruct (c =? LF); [discriminate|].
  destruct (split_nl s); discriminate.
Qed.

Lemma split_nl_cons (c : N) (s : jsstring) :
  (c =? LF) = false ->
  exists l ls, split_nl s = l :: ls /\ split_nl (c :: s) = (c :: l) :: ls.
Proof.
  intros Hc. simpl. rewrite Hc.
  destruct (split_nl s) as [|l ls] eqn:E.
  - exfalso. exact (split_nl_not_nil s E).
  - now exists l, ls.
Qed.

Lemma split_nl_app (l s : jsstring) :
  nlFree l -> split_nl (l ++ LF :: s) = l :: split_nl s.
Proof.
  induction l as [|c l IH]; intros Hl.
  - reflexivity.
  - assert (Hc : (c =? LF) = false).
    { apply N.eqb_neq. intros ->. apply Hl. now left. }
    assert (Hl' : nlFree l) by (intros H; apply Hl; now right).
    simpl. rewrite Hc, (IH Hl'). reflexivity.
Qed.

Lemma split_nl_lines (s : jsstring) : Forall nlFree (split_nl s).
Proof.
  induction s as [|c s IH]; simpl.
  - constructor; [intros []|constructor].
  - destruct (c =? LF) eqn:Hc.
    + constructor; [intros []|exact IH].
    + destruct (split_nl s) as [|l ls]; [constructor; [|constructor]|].
      * intros [H|[]]. apply N.eqb_neq in Hc. congruence.
      * inversion IH as [|? ? Hl Hls]; subst. constructor; [|exact Hls].
        intros [H|H]; [|exact (Hl H)]. apply N.eqb_neq in Hc. congruence.
Qed.

Lemma joinLines_app (p q : list jsstring) :
  joinLines (p ++ q) = joinLines p ++ joinLines q.
Proof. unfold joinLines. now rewrite map_app, List.concat_app. Qed.

Lemma joinLines_snoc (p : list jsstring) (l : jsstring) :
  joinLines (p ++ [l]) = joinLines p ++ l ++ [LF].
Proof.
  rewrite joinLines_app. unfold joinLines at 2. simpl.
  now rewrite app_nil_r.
Qed.

Lemma split_nl_joinLines (pend : list jsstring) (s : jsstring) :
  Forall nlFree pend ->
  split_nl (joinLines pend ++ s) = pend ++ split_nl s.
Proof.
  induction 1 as [|l pend Hl _ IH]; [reflexivity|].
  unfold joinLines in *. simpl. unfold addNl at 1.
  rewrite <- !app_assoc. simpl.
  rewrite (split_nl_app _ _ Hl), IH. reflexivity.
Qed.

(** Splitting a buffer of whole lines gives the lines and one more, empty,
    piece. *)
Lemma sourceLines_joinLines (pend : list jsstring) :
  Forall nlFree pend ->
  sourceLines (joinLines pend) = map addNl pend ++ [[LF]].
Proof.
  intros H. unfold sourceLines.
  rewrite <- (app_nil_r (joinLines pend)), (split_nl_joinLines _ _ H).
  now rewrite map_app.
Qed.

(** The elements of [sourceLines b], put together, are [b] and a line
    feed. *)
Lemma concat_sourceLines (b : jsstring) :
  List.concat (sourceLines b) = b ++ [LF].
Proof.
  unfold sourceLines.
  induction b as [|c b IH]; [reflexivity|].
  destruct (c =? LF) eqn:Hc.
  - simpl. rewrite Hc. simpl. rewrite IH.
    apply N.eqb_eq in Hc. now subst.
  - destruct (split_nl_cons c b Hc) as (l & ls & E1 & E2).
    rewrite E2. rewrite E1 in IH.
    change (c :: (addNl l ++ List.concat (map addNl ls)) = c :: b ++ [LF]).
    f_equal. exact IH.
Qed.

Lemma trimStart_blank (s : jsstring) :
  forallb isWhiteSpace s = true -> trimStart s = [].
Proof.
  induction s as [|c s IH]; simpl; [reflexivity|].
  destruct (isWhiteSpace c); simpl; [exact IH|discriminate].
Qed.

Lemma trimStart_not_blank (s : jsstring) :
  forallb isWhiteSpace s = false ->
  exists c r, trimStart s = c :: r /\ isWhiteSpace c = false.
Proof.
  induction s as [|c s IH]; simpl; [discriminate|].
  destruct (isWhiteSpace c) eqn:Hc; simpl; [exact IH|].
  intros _. now exists c, s.
Qed.

(** [s.trim()] is truthy exactly when [s] has a character that is not
    white space. *)
Lemma truthy_trim (s : jsstring) :
  truthy (trim s) = negb (forallb isWhiteSpace s).
Proof.
  unfold trim, trimEnd.
  destruct (forallb isWhiteSpace s) eqn:Hs.
  - now rewrite (trimStart_blank _ Hs).
  - destruct (trimStart_not_blank _ Hs) as (c & r & -> & Hc).
    assert (H : forallb isWhiteSpace (rev (c :: r)) = false).
    { simpl. rewrite forallb_app. simpl. rewrite Hc.
      now rewrite andb_false_r. }
    destruct (trimStart_not_blank _ H) as (d & t & -> & _).
    simpl. now destruct (rev t).
Qed.

Lemma isBlank_forallb (s : jsstring) : isBlank s = forallb isWhiteSpace s.
Proof. unfold isBlank. rewrite truthy_trim. apply negb_involutive. Qed.

Lemma truthy_trim_isBlank (s : jsstring) :
  truthy (trim s) = negb (isBlank s).
Proof. unfold isBlank. now rewrite negb_involutive. Qed.

Lemma isBlank_app (s t : jsstring) :
  isBlank (s ++ t) = isBlank s && isBlank t.
Proof. rewrite !isBlank_forallb. apply forallb_app. Qed.

Lemma isBlank_addNl (l : jsstring) : isBlank (addNl l) = isBlank l.
Proof. unfold addNl. rewrite isBlank_app. apply andb_true_r. Qed.

Lemma isBlank_joinLines (pend : list jsstring) :
  isBlank (joinLines pend) = forallb isBlank pend.
Proof.
  induction pend as [|l pend IH]; [reflexivity|].
  unfold joinLines in *. simpl.
  now rewrite isBlank_app, isBlank_addNl, IH.
Qed.

Lemma isBlank_map_addNl (pend : list jsstring) :
  forallb isBlank (map addNl pend) = forallb isBlank pend.
Proof.
  induction pend as [|l pend IH]; [reflexivity|].
  simpl. now rewrite isBlank_addNl, IH.
Qed.

Lemma strictEq_eq (s t : jsstring) : strictEq s t = true <-> s = t.
Proof.
  revert t. induction s as [|c s IH]; intros [|d t]; simpl;
    try (split; [discriminate|discriminate]); [tauto|].
  rewrite andb_true_iff, N.eqb_eq, IH.
  split; [intros [-> ->]; reflexivity|intros [= -> ->]; now split].
Qed.

Lemma startsWith_addNl (l p : jsstring) :
  nlFree p -> startsWith (addNl l) p = startsWith l p.
Proof.
  unfold addNl. revert l.
  induction p as [|c p IH]; intros l Hp; [reflexivity|].
  assert (Hp' : nlFree p) by (intros H; apply Hp; now right).
  destruct l as [|d l].
  - change (((LF =? c) && startsWith [] p) = false).
    destruct (N.eqb_spec LF c) as [E|E]; [|reflexivity].
    exfalso. apply Hp. now left.
  - simpl. now rewrite (IH l Hp').
Qed.

End StringFacts.

(* ================================================================== *)
(** ** Facts about the scan *)
(* ================================================================== *)

Section ScanFacts.

Lemma step_open (st : state) (line : jsstring) :
  startsWith line fence = true -> inCodeBlock st = false ->
  step st line =
    {| cells := cells st ++ flush (currentCell st);
       currentCell := keepBlank (currentCell st);
       inCodeBlock := true;
       codeBlockLang := trim (slice 3 line) |}.
Proof. intros Hf Hc. unfold step. now rewrite Hf, Hc. Qed.

Lemma step_close (st : state) (line : jsstring) :
  startsWith line fence = true -> inCodeBlock st = true ->
  step st line =
    {| cells := cells st ++ [closeCell (codeBlockLang st) (currentCell st)];
       currentCell := [];
       inCodeBlock := false;
       codeBlockLang := codeBlockLang st |}.
Proof.
  intros Hf Hc. unfold step, closeCell. rewrite Hf, Hc. simpl.
  now destruct (strictEq (codeBlockLang st) python).
Qed.

Lemma step_header (st : state) (line : jsstring) :
  startsWith line hash = true -> inCodeBlock st = false ->
  step st line =
    {| cells := cells st ++ flush (currentCell st);
       currentCell := line ++ [LF];
       inCodeBlock := false;
       codeBlockLang := codeBlockLang st |}.
Proof.
  intros Hh Hc. unfold step. rewrite Hh, Hc.
  destruct line as [|d line]; [discriminate|].
  simpl in Hh. rewrite andb_true_r in Hh. apply N.eqb_eq in Hh. subst d.
  reflexivity.
Qed.

Lemma step_plain (st : state) (line : jsstring) :
  startsWith line fence = false ->
  inCodeBlock st = true \/ startsWith line hash = false ->
  step st line =
    {| cells := cells st;
       currentCell := currentCell st ++ line ++ [LF];
       inCodeBlock := inCodeBlock st;
       codeBlockLang := codeBlockLang st |}.
Proof.
  intros Hf H. unfold step. rewrite Hf.
  destruct H as [-> | ->]; [reflexivity|].
  now rewrite andb_false_r.
Qed.

Lemma scan_app (l1 l2 : list jsstring) (st : state) :
  scan (l1 ++ l2) st = scan l2 (scan l1 st).
Proof. apply fold_left_app. Qed.



(** Inside a fence, lines that are no fence delimiter only grow the
    buffer. *)
Lemma scan_fence_body (body : list jsstring) (st : state) :
  inCodeBlock st = true -> Forall notFence body ->
  scan body st =
    {| cells := cells st;
       currentCell := currentCell st ++ joinLines body;
       inCodeBlock := true;
       codeBlockLang := codeBlockLang st |}.
Proof.
  intros Hin Hb. revert st Hin.
  induction Hb as [|l body Hl _ IH]; intros st Hin.
  - destruct st; simpl in *. subst. unfold joinLines. simpl.
    now rewrite app_nil_r.
  - simpl. rewrite (step_plain st l Hl (or_introl Hin)).
    rewrite IH by exact Hin. simpl.
    unfold joinLines. simpl. unfold addNl at 2.
    now rewrite <- !app_assoc.
Qed.

Lemma wholeLines_keepBlank (b : jsstring) (pend : list jsstring) :
  wholeLines b pend ->
  exists carried,
    wholeLines (keepBlank b) carried
    /\ forallb isBlank carried = true
    /\ (truthy (trim b) = true -> carried = []).
Proof.
  intros [Hp Hb]. unfold keepBlank.
  destruct (truthy (trim b)) eqn:Ht.
  - exists []. repeat split; constructor.
  - exists pend. repeat split; try assumption; [|discriminate].
    rewrite <- isBlank_joinLines, <- Hb. unfold isBlank. now rewrite Ht.
Qed.

(** An invariant of the loop, over the lines already read and the state. *)
Lemma scan_invariant (I : list jsstring -> state -> Prop) (st0 : state) :
  I [] st0 ->
  (forall done st l, nlFree l -> I done st -> I (done ++ [l]) (step st l)) ->
  forall lines, Forall nlFree lines -> I lines (scan lines st0).
Proof.
  intros H0 Hstep lines.
  induction lines as [|l lines IH] using rev_ind; intros Hl.
  - exact H0.
  - apply Forall_app in Hl as [Hl1 Hl2]. inversion Hl2; subst.
    rewrite scan_app. simpl. apply Hstep; auto.
Qed.


End ScanFacts.

(* ================================================================== *)
(** ** The documents of the specification's examples *)
(* ================================================================== *)

(* ================================================================== *)
(** ** C1: the three cells of example 2 *)
(* ================================================================== *)

Example example2_text :
  example2
  = js "Intro" ++ LF :: js "```python" ++ LF :: js "print(1)" ++ LF
    :: js "```" ++ LF :: js "End" ++ [LF]
  /\ split_nl example2
     = [js "Intro"; js "```python"; js "print(1)"; js "```"; js "End"; js ""].
Proof. split; reflexivity. Qed.

(** C1, as stated, fails: on ["Intro\n```python\nprint(1)\n```\nEnd\n"]
    the result is not the three cells with contents [["Intro\n"]],
    [["print(1)\n"]] and [["End\n"]]. *)
Lemma example2_not_single_lines :
  splitIntoNotebookCells example2 <> [md ["Intro"]; py ["print(1)"]; md ["End"]].
Proof. vm_compute. discriminate. Qed.

(** C1, amended: on ["Intro\n```python\nprint(1)\n```\nEnd\n"] the result
    is exactly three cells in order, a markdown cell with content
    [["Intro\n", "\n"]], a code cell with content [["print(1)\n", "\n"]] and
    a markdown cell with content [["End\n", "\n", "\n"]]. *)
Theorem example2_cells :
  splitIntoNotebookCells example2
  = [md ["Intro"; ""]; py ["print(1)"; ""]; md ["End"; ""; ""]].
Proof. vm_compute. reflexivity. Qed.

(* ================================================================== *)
(** ** C9: an indented fence is ordinary content *)
(* ================================================================== *)

Lemma isWhiteSpace_not_backtick_hash (w : N) :
  isWhiteSpace w = true -> (w =? 96) = false /\ (w =? 35) = false.
Proof.
  intros Hw. split; apply N.eqb_neq; intros ->; discriminate Hw.
Qed.

(** C9: a line is a fence delimiter exactly when its first three
    characters are backticks; a line that begins with a white space
    character is not one, whatever follows, and the loop only appends it
    (and a line feed) to the buffer: the cells, the fence flag and the
    recorded tag are unchanged. *)
Theorem indented_fence_is_content (line : jsstring) :
  (startsWith line fence = true <->
   exists rest, line = 96 :: 96 :: 96 :: rest)
  /\ forall (st : state) (w : N) (rest : jsstring),
       line = w :: rest -> isWhiteSpace w = true ->
       startsWith line fence = false
       /\ step st line =
            {| cells := cells st;
               currentCell := currentCell st ++ line ++ [LF];
               inCodeBlock := inCodeBlock st;
               codeBlockLang := codeBlockLang st |}.
Proof.
  split.
  - split.
    + destruct line as [|a [|b [|c rest]]]; simpl; try discriminate;
        try (rewrite ?andb_false_r; discriminate).
      rewrite andb_true_r, !andb_true_iff, !N.eqb_eq.
      intros (-> & -> & ->). now exists rest.
    + intros (rest & ->). reflexivity.
  - intros st w rest -> Hw.
    destruct (isWhiteSpace_not_backtick_hash w Hw) as [Hb Hh].
    assert (Hf : startsWith (w :: rest) fence = false)
      by (simpl; now rewrite Hb).
    split; [exact Hf|].
    apply step_plain; [exact Hf|].
    right. simpl. now rewrite Hh.
Qed.

Lemma indented_fence_is_content_witness :
  let line := js "  ```python" in
  let st := scan [js "a"] init in
  isWhiteSpace 32 = true
  /\ startsWith line fence = false
  /\ step st line =
       {| cells := []; currentCell := js "a" ++ [LF] ++ line ++ [LF];
          inCodeBlock := false; codeBlockLang := [] |}.
Proof.
  split; [reflexivity|].
  exact (proj2 (indented_fence_is_content (js "  ```python"))
           (scan [js "a"] init) 32 (js " ```python")
           eq_refl eq_refl).
Defined.

(* ================================================================== *)
(** ** Fenced blocks *)
(* ================================================================== *)

Section FencedBlocks.

Lemma nlFree_fence : nlFree fence.
Proof. intros [H|[H|[H|[]]]]; discriminate H. Qed.



(** A whole fenced block, read from outside a fence. *)
Lemma scan_block (st : state) (o c : jsstring) (body : list jsstring) :
  inCodeBlock st = false ->
  startsWith o fence = true -> Forall notFence body ->
  startsWith c fence = true ->
  scan (o :: body ++ [c]) st =
    {| cells :=
         cells (step st o) ++
         [closeCell (trim (slice 3 o))
            (currentCell (step st o) ++ joinLines body)];
       currentCell := [];
       inCodeBlock := false;
       codeBlockLang := trim (slice 3 o) |}.
Proof.
  intros Hin Ho Hb Hc.
  change (scan (o :: body ++ [c]) st) with (scan (body ++ [c]) (step st o)).
  rewrite scan_app, (step_open st o Ho Hin).
  rewrite (scan_fence_body body) by (reflexivity || exact Hb).
  simpl. now rewrite step_close.
Qed.





End FencedBlocks.

(* ================================================================== *)
(** ** C2: a fenced block is a code cell exactly when its tag is python *)
(* ================================================================== *)



(* ================================================================== *)
(** ** C5: the content of a fenced block that is not python *)
(* ================================================================== *)

Example example3_text :
  example3 = js "```bash" ++ LF :: js "echo hi" ++ LF :: js "```" ++ [LF]
  /\ split_nl example3 = [js "```bash"; js "echo hi"; js "```"; js ""].
Proof. split; reflexivity. Qed.




(* ================================================================== *)
(** ** C4: a fence still open at the end of the document *)
(* ================================================================== *)


Lemma step_inCodeBlock (st : state) (l : jsstring) :
  inCodeBlock (step st l)
  = if startsWith l fence then negb (inCodeBlock st) else inCodeBlock st.
Proof.
  unfold step. destruct (startsWith l fence).
  - now destruct (inCodeBlock st).
  - now destruct (negb (inCodeBlock st) && startsWith l hash).
Qed.





Example unterminated_python_fence_cells :
  splitIntoNotebookCells (doc ["Intro"; "```python"; "print(1)"])
  = [md ["Intro"; ""]; md ["print(1)"; ""]].
Proof. vm_compute. reflexivity. Qed.

(* ================================================================== *)
(** ** The pieces of a document *)
(* ================================================================== *)

Section Pieces.

Lemma allWhiteSpace_isBlank (ls : list jsstring) :
  forallb (forallb isWhiteSpace) ls = forallb isBlank ls.
Proof.
  induction ls as [|l ls IH]; [reflexivity|].
  simpl. now rewrite IH, isBlank_forallb.
Qed.

Lemma flush_pending (b : jsstring) (pend : list jsstring) :
  wholeLines b pend -> flush b = pieceCells (Pending pend).
Proof.
  intros [Hp ->]. unfold flush, pieceCells.
  rewrite truthy_trim_isBlank, isBlank_joinLines, allWhiteSpace_isBlank.
  destruct (forallb isBlank pend); [reflexivity|].
  now rewrite (sourceLines_joinLines pend Hp).
Qed.

Lemma close_block (lang b : jsstring) (pend : list jsstring) :
  wholeLines b pend ->
  [closeCell lang b] = pieceCells (Block lang pend).
Proof.
  intros [Hp ->]. unfold closeCell, pieceCells.
  rewrite (sourceLines_joinLines pend Hp).
  change (js "python") with python.
  now destruct (strictEq lang python).
Qed.

Lemma bodyLines_app (l1 l2 : list jsstring) :
  bodyLines (l1 ++ l2) = bodyLines l1 ++ bodyLines l2.
Proof. apply filter_app. Qed.

Lemma bodyLines_fence (l : jsstring) :
  startsWith l fence = true -> bodyLines [l] = [].
Proof. intros H. unfold bodyLines, fenceLine. cbn [filter]. now rewrite H. Qed.

Lemma bodyLines_body (l : jsstring) :
  startsWith l fence = false -> bodyLines [l] = [l].
Proof. intros H. unfold bodyLines, fenceLine. cbn [filter]. now rewrite H. Qed.

Lemma header_not_fence (l : jsstring) :
  startsWith l hash = true -> startsWith l fence = false.
Proof.
  destruct l as [|d l]; [discriminate|]. simpl.
  rewrite andb_true_r. intros H. apply N.eqb_eq in H. now subst d.
Qed.

Lemma pieced_step (done : list jsstring) (st : state) (l : jsstring) :
  nlFree l -> pieced done st -> pieced (done ++ [l]) (step st l).
Proof.
  intros Hl (pieces & pend & Hw & Hb & Hc). unfold pieced.
  rewrite bodyLines_app, <- Hb.
  destruct (startsWith l fence) eqn:Hf;
    [destruct (inCodeBlock st) eqn:Hin
    |destruct (negb (inCodeBlock st) && startsWith l hash) eqn:Hh].
  - rewrite (step_close st l Hf Hin), (bodyLines_fence l Hf).
    cbn [cells currentCell].
    exists (pieces ++ [Block (codeBlockLang st) pend]), [].
    split; [split; [constructor|reflexivity]|].
    rewrite !flat_map_app, (close_block _ _ pend Hw), Hc.
    cbn [flat_map pieceLines]. now rewrite !app_nil_r.
  - rewrite (step_open st l Hf Hin), (bodyLines_fence l Hf).
    cbn [cells currentCell]. rewrite (flush_pending _ pend Hw).
    destruct Hw as [Hp Hbuf]. unfold keepBlank, pieceCells.
    rewrite Hbuf, truthy_trim_isBlank, isBlank_joinLines.
    rewrite allWhiteSpace_isBlank.
    destruct (forallb isBlank pend) eqn:E; cbn [negb].
    + exists pieces, pend.
      split; [now split|]. now rewrite !app_nil_r.
    + exists (pieces ++ [Pending pend]), [].
      split; [split; [constructor|reflexivity]|].
      rewrite !flat_map_app, Hc. cbn [flat_map pieceLines pieceCells].
      rewrite allWhiteSpace_isBlank, E. now rewrite !app_nil_r.
  - apply andb_true_iff in Hh as [Hin Hh]. apply negb_true_iff in Hin.
    rewrite (step_header st l Hh Hin), (bodyLines_body l Hf).
    cbn [cells currentCell]. rewrite (flush_pending _ pend Hw).
    exists (pieces ++ [Pending pend]), [l].
    split.
    { split; [now constructor|].
      unfold joinLines. simpl. now rewrite app_nil_r. }
    rewrite !flat_map_app, Hc. cbn [flat_map pieceLines].
    now rewrite !app_nil_r, <- app_assoc.
  - rewrite (step_plain st l Hf), (bodyLines_body l Hf).
    2:{ apply andb_false_iff in Hh as [Hh|Hh]; [left|now right].
        now apply negb_false_iff in Hh. }
    cbn [cells currentCell].
    exists pieces, (pend ++ [l]). destruct Hw as [Hp Hbuf]. split.
    + split; [apply Forall_app; split; [exact Hp|now constructor]|].
      now rewrite joinLines_snoc, Hbuf.
    + split; [now rewrite app_assoc|exact Hc].
Qed.

Lemma scan_pieced (lines : list jsstring) :
  Forall nlFree lines -> pieced lines (scan lines init).
Proof.
  apply (scan_invariant pieced init).
  - exists [], []. repeat split. constructor.
  - intros done st l. apply pieced_step.
Qed.

Lemma firstn_nlFree (text : jsstring) (n : nat) :
  Forall nlFree (firstn n (split_nl text)).
Proof.
  pose proof (split_nl_lines text) as H.
  rewrite <- (firstn_skipn n (split_nl text)) in H.
  now apply Forall_app in H.
Qed.

Lemma firstn_succ_nth (lines : list jsstring) (n : nat) (l : jsstring) :
  nth_error lines n = Some l -> firstn (S n) lines = firstn n lines ++ [l].
Proof.
  revert lines. induction n as [|n IH]; intros [|x lines]; try discriminate.
  - intros [= ->]. reflexivity.
  - intros H. cbn [nth_error] in H.
    change (x :: firstn (S n) lines = x :: firstn n lines ++ [l]).
    now rewrite (IH lines H).
Qed.

(** What the buffer is, in terms of the lines it was built from. *)
Lemma wholeLines_buffer (b : jsstring) (pend : list jsstring) :
  wholeLines b pend ->
  (b = [] \/ exists b', b = b' ++ [LF]) /\ split_nl b = pend ++ [[]].
Proof.
  intros [Hp ->]. split.
  - destruct pend as [|l pend _] using rev_ind; [now left|].
    right. exists (joinLines pend ++ l).
    now rewrite joinLines_snoc, app_assoc.
  - rewrite <- (app_nil_r (joinLines pend)).
    now rewrite (split_nl_joinLines pend [] Hp).
Qed.

End Pieces.

(* ================================================================== *)
(** ** C6: a header line starts a new markdown cell *)
(* ================================================================== *)

Section Headers.

Variable h : jsstring.
Hypothesis h_line : nlFree h.
Hypothesis h_hash : startsWith h hash = true.






End Headers.




(* ================================================================== *)
(** ** The shape of every cell *)
(* ================================================================== *)

Section CellShapes.

Lemma flush_shape (b : jsstring) (pend : list jsstring) :
  wholeLines b pend -> Forall cellShape (flush b).
Proof.
  intros [Hp ->]. unfold flush. rewrite truthy_trim_isBlank.
  rewrite isBlank_joinLines.
  destruct (forallb isBlank pend) eqn:E; simpl; constructor; [|constructor].
  apply (flushedShape _ pend Hp E).
  now rewrite sourceLines_joinLines.
Qed.

Lemma closeCell_shape (lang b : jsstring) (pend : list jsstring) :
  wholeLines b pend -> cellShape (closeCell lang b).
Proof.
  intros [Hp ->]. unfold closeCell.
  rewrite (sourceLines_joinLines pend Hp).
  destruct (strictEq lang python).
  - now apply (codeShape _ pend).
  - apply (demotedShape _ lang pend Hp). now rewrite <- app_assoc.
Qed.

Lemma scan_shapes (lines : list jsstring) :
  Forall nlFree lines ->
  Forall cellShape (cells (scan lines init))
  /\ exists pend, wholeLines (currentCell (scan lines init)) pend.
Proof.
  apply (scan_invariant
           (fun _ st => Forall cellShape (cells st)
                        /\ exists pend, wholeLines (currentCell st) pend)).
  - split; [constructor|]. exists []. split; [constructor|reflexivity].
  - intros _ st l Hl (Hc & pend & Hw).
    destruct (startsWith l fence) eqn:Hf;
      [destruct (inCodeBlock st) eqn:Hin
      |destruct (negb (inCodeBlock st) && startsWith l hash) eqn:Hh].
    + rewrite (step_close st l Hf Hin). simpl. split.
      * apply Forall_app. split; [exact Hc|].
        constructor; [|constructor]. now apply (closeCell_shape _ _ pend).
      * exists []. split; [constructor|reflexivity].
    + rewrite (step_open st l Hf Hin). simpl. split.
      * apply Forall_app. split; [exact Hc|]. now apply (flush_shape _ pend).
      * destruct (wholeLines_keepBlank _ _ Hw) as (c & Hc' & _).
        now exists c.
    + apply andb_true_iff in Hh as [Hin Hh]. apply negb_true_iff in Hin.
      rewrite (step_header st l Hh Hin). simpl. split.
      * apply Forall_app. split; [exact Hc|]. now apply (flush_shape _ pend).
      * exists [l]. split; [now constructor|].
        unfold joinLines. simpl. now rewrite app_nil_r.
    + rewrite (step_plain st l Hf).
      2:{ apply andb_false_iff in Hh as [Hh|Hh]; [left|now right].
          now apply negb_false_iff in Hh. }
      simpl. split; [exact Hc|].
      exists (pend ++ [l]). destruct Hw as [Hp ->]. split.
      * apply Forall_app. split; [exact Hp|now constructor].
      * now rewrite joinLines_snoc.
Qed.

Lemma result_shapes (text : jsstring) :
  Forall cellShape (splitIntoNotebookCells text).
Proof.
  unfold splitIntoNotebookCells.
  destruct (scan_shapes (split_nl text) (split_nl_lines text))
    as (Hc & pend & Hw).
  apply Forall_app. split; [exact Hc|]. now apply (flush_shape _ pend).
Qed.

End CellShapes.

(* ================================================================== *)
(** ** C3: which cells can be blank *)
(* ================================================================== *)

(** C3, as stated, fails: the python fence with an empty body of
    ["```python\n```\nEnd"] makes a code cell with content [["\n"]], which
    is white space only; it is the first cell of two, and holds no header
    line. *)
Lemma empty_python_fence_blank_cell :
  splitIntoNotebookCells (doc ["```python"; "```"; "End"])
  = [py [""]; md ["End"; ""]]
  /\ blankContent (source (py [""])) = true
  /\ ~ Forall (fun c => cell_type c = code -> blankContent (source c) = false)
        (splitIntoNotebookCells (doc ["```python"; "```"; "End"])).
Proof.
  split; [vm_compute; reflexivity|]. split; [vm_compute; reflexivity|].
  intros H. inversion H as [|c cs Hc _]; subst.
  specialize (Hc eq_refl). vm_compute in Hc. discriminate Hc.
Qed.

(** C3, amended: in the result for every document, every markdown cell has
    content that is not white space only; a code cell is pushed when its
    fence closes without a test of the buffer. *)
Theorem markdown_cells_not_blank (text : jsstring) :
  Forall (fun c => cell_type c = code \/ blankContent (source c) = false)
    (splitIntoNotebookCells text).
Proof.
  eapply Forall_impl; [|apply result_shapes].
  intros c [pend Hp Hb ->|pend Hp ->|tag pend Hp ->]; simpl.
  - right. unfold blankContent.
    now rewrite forallb_app, isBlank_map_addNl, Hb.
  - now left.
  - right. unfold blankContent.
    change (isBlank (96 :: 96 :: 96 :: tag ++ [LF])
            && forallb isBlank (map addNl pend ++ [[LF]; fence ++ [LF]])
            = false).
    now rewrite isBlank_forallb.
Qed.

(* ================================================================== *)
(** ** C8: the extra ["\n"] element of a content array *)
(* ================================================================== *)

(** C8, as stated, fails twice.  The markdown cell of the fenced block of
    ["```bash\necho hi\n```\n"] has a content array that ends with the
    closing fence line, not with ["\n"]; and when the fence of
    ["```python\n```"] closes, a code cell is pushed from the empty buffer,
    which does not end with a line feed. *)
Lemma demoted_cell_ends_with_fence :
  (exists c, In c (splitIntoNotebookCells example3)
             /\ cell_type c = markdown
             /\ last (source c) [] = fence ++ [LF]
             /\ last (source c) [] <> [LF])
  /\ currentCell (scan [js "```python"] init) = []
  /\ ~ (exists b, currentCell (scan [js "```python"] init) = b ++ [LF])
  /\ splitIntoNotebookCells (doc ["```python"; "```"]) = [py [""]].
Proof.
  split; [|split; [reflexivity|split; [|vm_compute; reflexivity]]].
  2:{ intros (b & Hb). vm_compute in Hb. now destruct b. }
  exists (md ["```bash"; "echo hi"; ""; "```"]).
  split; [now left|]. split; [reflexivity|].
  split; [reflexivity|]. vm_compute. discriminate.
Qed.

(** C8, amended: at every point of the loop the buffer is the pending
    source lines [pend] (the last lines read that are no fence delimiter),
    each with its line feed: it is empty or ends with a line feed, and its
    split is [pend] and one more, empty, piece.  Every cell is pushed from
    that buffer, by the line read next or at the end of the input: a code
    cell and a flushed markdown cell (pushed when [pend] is not white space
    only) have the content [pend], each line with its line feed, and one
    more element ["\n"]; the markdown cell of a fenced block that is not
    python has that between the rebuilt opening fence line and the closing
    fence line. *)
Theorem source_extra_nl_element :
  (forall (text : jsstring) (n : nat) (l : jsstring),
     nth_error (split_nl text) n = Some l ->
     exists earlier pend,
       bodyLines (firstn n (split_nl text)) = earlier ++ pend
       /\ currentCell (scan (firstn n (split_nl text)) init)
          = joinLines pend
       /\ (currentCell (scan (firstn n (split_nl text)) init) = []
           \/ exists b,
                currentCell (scan (firstn n (split_nl text)) init)
                = b ++ [LF])
       /\ split_nl (currentCell (scan (firstn n (split_nl text)) init))
          = pend ++ [[]]
       /\ scan (firstn (S n) (split_nl text)) init
          = step (scan (firstn n (split_nl text)) init) l
       /\ cells (step (scan (firstn n (split_nl text)) init) l)
          = cells (scan (firstn n (split_nl text)) init)
            ++ (if startsWith l fence then
                  if inCodeBlock (scan (firstn n (split_nl text)) init)
                  then pieceCells
                         (Block
                            (codeBlockLang
                               (scan (firstn n (split_nl text)) init))
                            pend)
                  else pieceCells (Pending pend)
                else if negb (inCodeBlock
                                (scan (firstn n (split_nl text)) init))
                        && startsWith l hash
                then pieceCells (Pending pend)
                else []))
  /\ (forall text : jsstring,
        exists earlier pend,
          bodyLines (split_nl text) = earlier ++ pend
          /\ currentCell (scan (split_nl text) init) = joinLines pend
          /\ (currentCell (scan (split_nl text) init) = []
              \/ exists b,
                   currentCell (scan (split_nl text) init) = b ++ [LF])
          /\ split_nl (currentCell (scan (split_nl text) init))
             = pend ++ [[]]
          /\ splitIntoNotebookCells text
             = cells (scan (split_nl text) init)
               ++ pieceCells (Pending pend))
  /\ splitIntoNotebookCells (doc ["a"; "b"]) = [md ["a"; "b"; ""]]
  /\ splitIntoNotebookCells (doc ["```python"; "x"; "```"]) = [py ["x"; ""]]
  /\ splitIntoNotebookCells (doc ["```python"; "```"]) = [py [""]]
  /\ splitIntoNotebookCells example3
     = [md ["```bash"; "echo hi"; ""; "```"]].
Proof.
  split; [|split; [|repeat split; vm_compute; reflexivity]].
  - intros text n l Hn.
    set (st := scan (firstn n (split_nl text)) init).
    destruct (scan_pieced _ (firstn_nlFree text n))
      as (pieces & pend & Hw & Hb & Hc).
    fold st in Hw, Hc.
    exists (flat_map pieceLines pieces), pend.
    split; [now rewrite Hb|]. split; [exact (proj2 Hw)|].
    destruct (wholeLines_buffer _ _ Hw) as [He Hs].
    split; [exact He|]. split; [exact Hs|]. split.
    { rewrite (firstn_succ_nth _ n l Hn), scan_app. reflexivity. }
    destruct (startsWith l fence) eqn:Hf;
      [destruct (inCodeBlock st) eqn:Hin
      |destruct (negb (inCodeBlock st) && startsWith l hash) eqn:Hh].
    + rewrite (step_close st l Hf Hin). cbn [cells].
      now rewrite (close_block _ _ pend Hw).
    + rewrite (step_open st l Hf Hin). cbn [cells].
      now rewrite (flush_pending _ pend Hw).
    + apply andb_true_iff in Hh as [Hin Hh]. apply negb_true_iff in Hin.
      rewrite (step_header st l Hh Hin). cbn [cells].
      now rewrite (flush_pending _ pend Hw).
    + rewrite (step_plain st l Hf); [cbn [cells]; now rewrite app_nil_r|].
      apply andb_false_iff in Hh as [Hh|Hh]; [left|now right].
      now apply negb_false_iff in Hh.
  - intros text.
    destruct (scan_pieced _ (split_nl_lines text))
      as (pieces & pend & Hw & Hb & Hc).
    exists (flat_map pieceLines pieces), pend.
    split; [now rewrite Hb|]. split; [exact (proj2 Hw)|].
    destruct (wholeLines_buffer _ _ Hw) as [He Hs].
    split; [exact He|]. split; [exact Hs|].
    unfold splitIntoNotebookCells. now rewrite (flush_pending _ pend Hw).
Qed.

Lemma source_extra_nl_element_witness :
  exists earlier pend,
    bodyLines (firstn 3 (split_nl example2)) = earlier ++ pend
    /\ currentCell (scan (firstn 3 (split_nl example2)) init)
       = joinLines pend
    /\ (currentCell (scan (firstn 3 (split_nl example2)) init) = []
        \/ exists b,
             currentCell (scan (firstn 3 (split_nl example2)) init)
             = b ++ [LF])
    /\ split_nl (currentCell (scan (firstn 3 (split_nl example2)) init))
       = pend ++ [[]]
    /\ scan (firstn 4 (split_nl example2)) init
       = step (scan (firstn 3 (split_nl example2)) init) (js "```")
    /\ cells (step (scan (firstn 3 (split_nl example2)) init) (js "```"))
       = cells (scan (firstn 3 (split_nl example2)) init)
         ++ pieceCells (Block (js "python") pend).
Proof.
  exact (proj1 source_extra_nl_element example2 3%nat (js "```") eq_refl).
Defined.

(* ================================================================== *)
(** ** C7: the lines of the source in the cells *)
(* ================================================================== *)

Section Coverage.

Lemma keptLine_addNl (l : jsstring) : keptLine (addNl l) = keptLine l.
Proof.
  unfold keptLine.
  now rewrite (startsWith_addNl l fence nlFree_fence), isBlank_addNl.
Qed.

Lemma filter_kept_addNl (pend : list jsstring) :
  filter keptLine (map addNl pend) = map addNl (filter keptLine pend).
Proof.
  induction pend as [|l pend IH]; [reflexivity|].
  simpl. rewrite keptLine_addNl, IH. now destruct (keptLine l).
Qed.

Lemma filter_kept_blank (pend : list jsstring) :
  forallb isBlank pend = true -> filter keptLine pend = [].
Proof.
  induction pend as [|l pend IH]; [reflexivity|].
  simpl. intros H. apply andb_true_iff in H as [Hl H].
  unfold keptLine at 1. rewrite Hl, andb_false_r. auto.
Qed.

Lemma filter_kept_sourceLines (pend : list jsstring) :
  Forall nlFree pend ->
  filter keptLine (sourceLines (joinLines pend))
  = map addNl (filter keptLine pend).
Proof.
  intros Hp. rewrite (sourceLines_joinLines pend Hp), filter_app.
  rewrite filter_kept_addNl. simpl.
  replace (keptLine [LF]) with false by reflexivity.
  apply app_nil_r.
Qed.

Lemma kept_flush (b : jsstring) (pend : list jsstring) :
  wholeLines b pend ->
  filter keptLine (contentLines (flush b))
  = map addNl (filter keptLine pend).
Proof.
  intros [Hp ->]. unfold flush.
  rewrite truthy_trim_isBlank, isBlank_joinLines.
  destruct (forallb isBlank pend) eqn:E; simpl.
  - now rewrite (filter_kept_blank pend E).
  - rewrite app_nil_r. now apply filter_kept_sourceLines.
Qed.

Lemma kept_open (b : jsstring) (pend : list jsstring) :
  wholeLines b pend ->
  exists carried,
    wholeLines (keepBlank b) carried
    /\ filter keptLine (contentLines (flush b))
       ++ map addNl (filter keptLine carried)
       = map addNl (filter keptLine pend).
Proof.
  intros Hw. pose proof (kept_flush b pend Hw) as Hk.
  destruct Hw as [Hp ->]. unfold keepBlank, flush in *.
  destruct (truthy (trim (joinLines pend))) eqn:E.
  - exists []. split; [split; [constructor|reflexivity]|].
    rewrite Hk. apply app_nil_r.
  - exists pend. split; [now split|reflexivity].
Qed.

Lemma kept_closeCell (lang b : jsstring) (pend : list jsstring) :
  wholeLines b pend ->
  filter keptLine (source (closeCell lang b))
  = map addNl (filter keptLine pend).
Proof.
  intros [Hp ->]. unfold closeCell.
  destruct (strictEq lang python); simpl.
  - now apply filter_kept_sourceLines.
  - rewrite filter_app, (filter_kept_sourceLines pend Hp). simpl.
    apply app_nil_r.
Qed.

Lemma fence_not_kept (l : jsstring) :
  startsWith l fence = true -> filter keptLine [l] = [].
Proof. intros H. simpl. unfold keptLine. now rewrite H. Qed.

Lemma covers_step (done : list jsstring) (st : state) (l : jsstring) :
  nlFree l -> covers done st -> covers (done ++ [l]) (step st l).
Proof.
  intros Hl (pend & Hw & Hk). unfold covers in *.
  rewrite filter_app, map_app, <- Hk. clear Hk.
  destruct (startsWith l fence) eqn:Hf;
    [destruct (inCodeBlock st) eqn:Hin
    |destruct (negb (inCodeBlock st) && startsWith l hash) eqn:Hh].
  - rewrite (step_close st l Hf Hin), (fence_not_kept l Hf).
    cbn [cells currentCell].
    exists []. split; [split; [constructor|reflexivity]|].
    unfold contentLines. rewrite flat_map_app, filter_app.
    cbn [flat_map]. rewrite !app_nil_r, (kept_closeCell _ _ pend Hw).
    reflexivity.
  - rewrite (step_open st l Hf Hin), (fence_not_kept l Hf).
    cbn [cells currentCell].
    destruct (kept_open _ pend Hw) as (carried & Hc & Hk).
    exists carried. split; [exact Hc|].
    unfold contentLines in *.
    rewrite flat_map_app, filter_app, <- app_assoc, Hk.
    cbn [map]. now rewrite app_nil_r.
  - apply andb_true_iff in Hh as [Hin Hh]. apply negb_true_iff in Hin.
    rewrite (step_header st l Hh Hin). cbn [cells currentCell].
    exists [l]. split.
    { split; [now constructor|].
      unfold joinLines. simpl. now rewrite app_nil_r. }
    pose proof (kept_flush _ pend Hw) as Hk. unfold contentLines in *.
    rewrite flat_map_app, filter_app, <- app_assoc, Hk.
    now rewrite app_assoc.
  - rewrite (step_plain st l Hf).
    2:{ apply andb_false_iff in Hh as [Hh|Hh]; [left|now right].
        now apply negb_false_iff in Hh. }
    cbn [cells currentCell].
    exists (pend ++ [l]). destruct Hw as [Hp Hb]. split.
    + split; [apply Forall_app; split; [exact Hp|now constructor]|].
      now rewrite joinLines_snoc, Hb.
    + now rewrite filter_app, map_app, app_assoc.
Qed.

End Coverage.



(** X15: for every document, the content lines of the cells, in
    the order of the cells, once the blank ones and the ones that begin
    with three backticks are left out, are exactly the source lines that
    are not blank and are no fence delimiter, in the order of the source,
    each with its line feed: every such line is in the content of the cells
    once, and the order of the source is kept. *)
Theorem kept_lines_in_order (text : jsstring) :
  filter keptLine (contentLines (splitIntoNotebookCells text))
  = map addNl (filter keptLine (split_nl text)).
Proof.
  unfold splitIntoNotebookCells.
  destruct (scan_invariant covers init) with (lines := split_nl text)
    as (pend & Hw & Hk).
  - exists []. split; [split; [constructor|reflexivity]|reflexivity].
  - intros done st l. apply covers_step.
  - apply split_nl_lines.
  - rewrite <- Hk. unfold contentLines.
    rewrite flat_map_app, filter_app.
    fold (contentLines (flush (currentCell (scan (split_nl text) init)))).
    now rewrite (kept_flush _ pend Hw).
Qed.

(* ================================================================== *)
(** ** C10: every line that begins with [#] is a header boundary *)
(* ================================================================== *)



(* ================================================================== *)
(** ** Documents without fence and header lines *)
(* ================================================================== *)

Section PlainDocuments.

Lemma joinLines_split_nl (s : jsstring) : joinLines (split_nl s) = s ++ [LF].
Proof. exact (concat_sourceLines s). Qed.

Lemma split_nl_chars (s l : jsstring) (c : N) :
  In l (split_nl s) -> In c l -> In c s.
Proof.
  revert l. induction s as [|d s IH]; intros l.
  - intros [<-|[]] [].
  - destruct (d =? LF) eqn:Hd.
    + simpl. rewrite Hd. intros [<-|Hl] Hc; [destruct Hc|].
      right. exact (IH l Hl Hc).
    + destruct (split_nl_cons d s Hd) as (l0 & ls & E1 & E2).
      rewrite E2. rewrite E1 in IH.
      intros [<-|Hl] Hc.
      * destruct Hc as [->|Hc]; [now left|].
        right. apply (IH l0); [now left|exact Hc].
      * right. apply (IH l); [now right|exact Hc].
Qed.

Lemma scan_plain (lines : list jsstring) (st : state) :
  Forall plainLine lines ->
  scan lines st =
    {| cells := cells st;
       currentCell := currentCell st ++ joinLines lines;
       inCodeBlock := inCodeBlock st;
       codeBlockLang := codeBlockLang st |}.
Proof.
  intros H. revert st. induction H as [|l lines [Hf Hh] _ IH]; intros st.
  - destruct st. unfold joinLines. simpl. now rewrite app_nil_r.
  - simpl. rewrite (step_plain st l Hf (or_intror Hh)), IH. simpl.
    unfold joinLines. simpl. unfold addNl at 2.
    now rewrite <- !app_assoc.
Qed.

Lemma blank_lines_plain (text : jsstring) :
  forallb isWhiteSpace text = true -> Forall plainLine (split_nl text).
Proof.
  intros Hb. apply Forall_forall. intros l Hl.
  rewrite forallb_forall in Hb.
  destruct l as [|c l]; [now split|].
  assert (Hc : isWhiteSpace c = true).
  { apply Hb, (split_nl_chars text (c :: l) c Hl). now left. }
  destruct (isWhiteSpace_not_backtick_hash c Hc) as [H1 H2].
  split; simpl; [now rewrite H1|now rewrite H2].
Qed.

Lemma segment_plain (text : jsstring) :
  Forall plainLine (split_nl text) ->
  splitIntoNotebookCells text = flush (text ++ [LF]).
Proof.
  intros H. unfold splitIntoNotebookCells.
  rewrite (scan_plain _ init H). simpl. now rewrite joinLines_split_nl.
Qed.

End PlainDocuments.

(** X1: a document made of white space only (the empty document too)
    gives no cell. *)
Theorem blank_document_no_cells (text : jsstring) :
  forallb isWhiteSpace text = true -> splitIntoNotebookCells text = [].
Proof.
  intros Hb. rewrite (segment_plain text (blank_lines_plain text Hb)).
  unfold flush. rewrite truthy_trim, forallb_app, Hb. reflexivity.
Qed.

Lemma blank_document_no_cells_witness :
  splitIntoNotebookCells (doc [""; "  "; ""]) = [].
Proof.
  apply (blank_document_no_cells (doc [""; "  "; ""])). reflexivity.
Defined.

(** X2: a document that is not white space only and in which no line
    begins with three backticks or with [#] gives exactly one markdown cell;
    its content is every line of the document, each with a line feed, and
    one more element ["\n"]. *)
Theorem plain_document_one_cell (text : jsstring) :
  Forall plainLine (split_nl text) ->
  forallb isWhiteSpace text = false ->
  splitIntoNotebookCells text
  = [mkCell markdown (map addNl (split_nl text) ++ [[LF]])].
Proof.
  intros Hp Hb. rewrite (segment_plain text Hp).
  unfold flush. rewrite truthy_trim, forallb_app, Hb. simpl.
  rewrite <- joinLines_split_nl.
  now rewrite (sourceLines_joinLines _ (split_nl_lines text)).
Qed.

Lemma plain_document_one_cell_witness :
  splitIntoNotebookCells (doc ["one"; " # two"; ""])
  = [mkCell markdown
       (map addNl (split_nl (doc ["one"; " # two"; ""])) ++ [[LF]])].
Proof.
  apply (plain_document_one_cell (doc ["one"; " # two"; ""])).
  - repeat constructor.
  - reflexivity.
Defined.

(* ================================================================== *)
(** ** Fence lines toggle the fence *)
(* ================================================================== *)

Lemma scan_inCodeBlock (lines : list jsstring) (st : state) :
  inCodeBlock (scan lines st)
  = xorb (inCodeBlock st)
      (Nat.odd (List.length (filter fenceLine lines))).
Proof.
  revert st. induction lines as [|l lines IH]; intros st.
  - simpl. now destruct (inCodeBlock st).
  - change (scan (l :: lines) st) with (scan lines (step st l)).
    rewrite IH, step_inCodeBlock. cbn [filter]. unfold fenceLine at 2.
    destruct (startsWith l fence); [|reflexivity].
    cbn [List.length]. rewrite Nat.odd_succ, <- Nat.negb_odd.
    now destruct (inCodeBlock st), (Nat.odd _).
Qed.

(** X3: fence lines only toggle: after any lines read from the start, the
    scan is inside a fence exactly when it has read an odd number of lines
    that begin with three backticks.  What follows the backticks plays no
    part: a tagged fence line read inside a fence closes it. *)
Theorem fence_parity (lines : list jsstring) :
  inCodeBlock (scan lines init)
  = Nat.odd (List.length (filter fenceLine lines)).
Proof. rewrite scan_inCodeBlock. reflexivity. Qed.

(* ================================================================== *)
(** ** Code cells need a python tag *)
(* ================================================================== *)

Lemma flush_markdown (b : jsstring) :
  Forall (fun c => cell_type c = markdown) (flush b).
Proof.
  unfold flush. destruct (truthy (trim b)); repeat constructor.
Qed.

Lemma scan_no_python (lines : list jsstring) (st : state) :
  Forall (fun l => fenceLine l = true -> trim (slice 3 l) <> python) lines ->
  Forall (fun c => cell_type c = markdown) (cells st) ->
  codeBlockLang st <> python ->
  Forall (fun c => cell_type c = markdown) (cells (scan lines st))
  /\ codeBlockLang (scan lines st) <> python.
Proof.
  intros Hl. revert st.
  induction Hl as [|l lines Htag _ IH]; intros st Hc Hlang; [now split|].
  change (scan (l :: lines) st) with (scan lines (step st l)).
  unfold fenceLine in Htag.
  destruct (startsWith l fence) eqn:Hf;
    [destruct (inCodeBlock st) eqn:Hin
    |destruct (negb (inCodeBlock st) && startsWith l hash) eqn:Hh].
  - apply IH; rewrite (step_close st l Hf Hin); simpl; [|exact Hlang].
    apply Forall_app. split; [exact Hc|]. constructor; [|constructor].
    unfold closeCell. destruct (strictEq (codeBlockLang st) python) eqn:E.
    + apply strictEq_eq in E. contradiction.
    + reflexivity.
  - apply IH; rewrite (step_open st l Hf Hin); simpl; [|now apply Htag].
    apply Forall_app. split; [exact Hc|apply flush_markdown].
  - apply andb_true_iff in Hh as [Hin Hh]. apply negb_true_iff in Hin.
    apply IH; rewrite (step_header st l Hh Hin); simpl; [|exact Hlang].
    apply Forall_app. split; [exact Hc|apply flush_markdown].
  - assert (Hp : inCodeBlock st = true \/ startsWith l hash = false).
    { apply andb_false_iff in Hh as [Hh|Hh]; [left|now right].
      now apply negb_false_iff in Hh. }
    apply IH; rewrite (step_plain st l Hf Hp); assumption.
Qed.

(** X4: when no line that begins with three backticks has [python] as its
    trimmed tag, the result holds no code cell: every cell is a markdown
    cell. *)
Theorem no_python_tag_no_code_cell (text : jsstring) :
  (forall l, In l (split_nl text) -> fenceLine l = true ->
             trim (slice 3 l) <> python) ->
  Forall (fun c => cell_type c = markdown) (splitIntoNotebookCells text).
Proof.
  intros H. unfold splitIntoNotebookCells.
  destruct (scan_no_python (split_nl text) init) as [Hc _].
  - apply Forall_forall. exact H.
  - constructor.
  - discriminate.
  - apply Forall_app. split; [exact Hc|apply flush_markdown].
Qed.

Lemma no_python_tag_no_code_cell_witness :
  Forall (fun c => cell_type c = markdown)
    (splitIntoNotebookCells (doc ["# T"; "```py"; "x = 1"; "```"; "end"])).
Proof.
  apply (no_python_tag_no_code_cell
           (doc ["# T"; "```py"; "x = 1"; "```"; "end"])).
  intros l Hl _.
  vm_compute in Hl.
  destruct Hl as [<-|[<-|[<-|[<-|[<-|[]]]]]]; vm_compute; discriminate.
Defined.

(* ================================================================== *)
(** ** Every content element is one line *)
(* ================================================================== *)

Section LineElements.

Lemma trimStart_In (s : jsstring) (c : N) : In c (trimStart s) -> In c s.
Proof.
  induction s as [|d s IH]; simpl; [tauto|].
  destruct (isWhiteSpace d); [intros H; right; auto|tauto].
Qed.

Lemma trim_In (s : jsstring) (c : N) : In c (trim s) -> In c s.
Proof.
  unfold trim, trimEnd. intros H.
  apply in_rev, trimStart_In in H. apply in_rev in H.
  now apply trimStart_In.
Qed.

Lemma skipn_In (n : nat) (s : jsstring) (c : N) :
  In c (skipn n s) -> In c s.
Proof.
  revert s. induction n as [|n IH]; intros [|d s]; simpl; auto.
Qed.

Lemma nlFree_tag (l : jsstring) : nlFree l -> nlFree (trim (slice 3 l)).
Proof. intros Hl H. apply Hl. eapply skipn_In, trim_In, H. Qed.

Lemma sourceLines_elements (b : jsstring) :
  sourceLines b <> [] /\ Forall lineElement (sourceLines b).
Proof.
  unfold sourceLines. split.
  - pose proof (split_nl_not_nil b). now destruct (split_nl b).
  - apply Forall_map. eapply Forall_impl; [|apply split_nl_lines].
    intros l Hl. now exists l.
Qed.

Lemma flush_elements (b : jsstring) :
  Forall (fun c => source c <> [] /\ Forall lineElement (source c))
    (flush b).
Proof.
  unfold flush. destruct (truthy (trim b)); constructor; [|constructor].
  apply sourceLines_elements.
Qed.

Lemma closeCell_elements (lang b : jsstring) :
  nlFree lang ->
  source (closeCell lang b) <> []
  /\ Forall lineElement (source (closeCell lang b)).
Proof.
  intros Hlang. unfold closeCell.
  destruct (strictEq lang python); simpl.
  - apply sourceLines_elements.
  - split; [discriminate|].
    constructor.
    + exists (fence ++ lang). split; [|now rewrite <- app_assoc].
      intros H. apply in_app_or in H as [H|H];
        [exact (nlFree_fence H)|exact (Hlang H)].
    + apply Forall_app. split; [apply sourceLines_elements|].
      constructor; [|constructor].
      exists fence. split; [exact nlFree_fence|reflexivity].
Qed.

End LineElements.

(** X5: in every result, every cell has a content array that is not empty,
    and each of its elements is one line: a text without line feed followed
    by one line feed. *)
Theorem source_elements_are_lines (text : jsstring) :
  Forall (fun c => source c <> [] /\ Forall lineElement (source c))
    (splitIntoNotebookCells text).
Proof.
  unfold splitIntoNotebookCells.
  destruct (scan_invariant
              (fun _ st =>
                 Forall (fun c => source c <> []
                                  /\ Forall lineElement (source c))
                   (cells st)
                 /\ nlFree (codeBlockLang st)) init)
    with (lines := split_nl text) as [Hc _].
  - split; [constructor|intros []].
  - intros _ st l Hl [Hc Hlang].
    destruct (startsWith l fence) eqn:Hf;
      [destruct (inCodeBlock st) eqn:Hin
      |destruct (negb (inCodeBlock st) && startsWith l hash) eqn:Hh].
    + rewrite (step_close st l Hf Hin). simpl. split; [|exact Hlang].
      apply Forall_app. split; [exact Hc|].
      constructor; [|constructor]. now apply closeCell_elements.
    + rewrite (step_open st l Hf Hin). simpl.
      split; [|now apply nlFree_tag].
      apply Forall_app. split; [exact Hc|apply flush_elements].
    + apply andb_true_iff in Hh as [Hin Hh]. apply negb_true_iff in Hin.
      rewrite (step_header st l Hh Hin). simpl. split; [|exact Hlang].
      apply Forall_app. split; [exact Hc|apply flush_elements].
    + rewrite (step_plain st l Hf); [now split|].
      apply andb_false_iff in Hh as [Hh|Hh]; [left|now right].
      now apply negb_false_iff in Hh.
  - apply split_nl_lines.
  - apply Forall_app. split; [exact Hc|apply flush_elements].
Qed.

(* ================================================================== *)
(** ** Boundaries at which the conversion splits *)
(* ================================================================== *)

Section Boundaries.

Lemma shifted_step (C : list cell) (st st' : state) (l : jsstring) :
  shifted C st st' -> shifted C (step st l) (step st' l).
Proof.
  intros (Hc & Hb & Hin & Hlang). unfold shifted, step.
  rewrite Hc, Hb, <- Hin.
  destruct (startsWith l fence).
  - destruct (inCodeBlock st) eqn:E; simpl.
    + rewrite <- (Hlang eq_refl), <- app_assoc.
      repeat split; auto; discriminate.
    + rewrite <- app_assoc. repeat split; auto.
  - destruct (negb (inCodeBlock st) && startsWith l hash); simpl.
    + rewrite <- app_assoc. repeat split; auto.
    + repeat split; auto.
Qed.

Lemma shifted_scan (C : list cell) (lines : list jsstring) (st st' : state) :
  shifted C st st' -> shifted C (scan lines st) (scan lines st').
Proof.
  revert st st'. induction lines as [|l lines IH]; intros st st' H; [exact H|].
  simpl. apply IH, shifted_step, H.
Qed.

Lemma shifted_result (C : list cell) (lines : list jsstring) (st : state) :
  shifted C st init ->
  cells (scan lines st) ++ flush (currentCell (scan lines st))
  = C ++ cells (scan lines init) ++ flush (currentCell (scan lines init)).
Proof.
  intros H. destruct (shifted_scan C lines st init H) as (Hc & Hb & _).
  now rewrite Hc, Hb, <- app_assoc.
Qed.

End Boundaries.

(** X6: a header line read outside a fence is a boundary at which the
    conversion splits: the cells of the document are the cells of the text
    before the header line followed by the cells of the text from the header
    line on. *)
Theorem header_boundary (text before after : jsstring)
    (pre post : list jsstring) (h : jsstring) :
  split_nl text = pre ++ h :: post ->
  split_nl before = pre ->
  split_nl after = h :: post ->
  inCodeBlock (scan pre init) = false ->
  startsWith h hash = true ->
  splitIntoNotebookCells text
  = splitIntoNotebookCells before ++ splitIntoNotebookCells after.
Proof.
  intros Ht Hb Ha Hin Hh. unfold splitIntoNotebookCells.
  rewrite Ht, Hb, Ha, scan_app.
  change (scan (h :: post) (scan pre init))
    with (scan post (step (scan pre init) h)).
  change (scan (h :: post) init) with (scan post (step init h)).
  set (C := cells (scan pre init) ++ flush (currentCell (scan pre init))).
  assert (H : shifted C (step (scan pre init) h) (step init h)).
  { rewrite (step_header _ h Hh Hin), (step_header init h Hh eq_refl).
    unfold shifted. simpl. rewrite app_nil_r.
    repeat split; auto; discriminate. }
  destruct (shifted_scan C post _ _ H) as (Hc & Hbuf & _).
  now rewrite Hc, Hbuf, <- app_assoc.
Qed.

Lemma header_boundary_witness :
  splitIntoNotebookCells (doc ["a"; "```python"; "x"; "```"; "# B"; "c"])
  = splitIntoNotebookCells (doc ["a"; "```python"; "x"; "```"])
    ++ splitIntoNotebookCells (doc ["# B"; "c"]).
Proof.
  apply (header_boundary _ _ _
           [js "a"; js "```python"; js "x"; js "```"] [js "c"] (js "# B"));
    reflexivity.
Defined.

(** X7: the closing line of a fenced block is a boundary too: the cells of
    the document are the cells of the text up to the closing fence line
    followed by the cells of the text after it. *)
Theorem closed_fence_boundary (text before after : jsstring)
    (pre body post : list jsstring) (o c : jsstring) :
  split_nl text = pre ++ o :: body ++ c :: post ->
  split_nl before = pre ++ o :: body ++ [c] ->
  split_nl after = post ->
  inCodeBlock (scan pre init) = false ->
  startsWith o fence = true -> Forall notFence body ->
  startsWith c fence = true ->
  splitIntoNotebookCells text
  = splitIntoNotebookCells before ++ splitIntoNotebookCells after.
Proof.
  intros Ht Hb Ha Hin Ho Hbody Hc. unfold splitIntoNotebookCells.
  rewrite Ht, Hb, Ha.
  replace (pre ++ o :: body ++ c :: post)
    with ((pre ++ o :: body ++ [c]) ++ post)
    by (rewrite <- app_assoc; simpl; now rewrite <- app_assoc).
  rewrite (scan_app (pre ++ o :: body ++ [c]) post).
  set (st2 := scan (pre ++ o :: body ++ [c]) init).
  assert (E : st2 = scan (o :: body ++ [c]) (scan pre init))
    by apply scan_app.
  rewrite (scan_block _ o c body Hin Ho Hbody Hc) in E.
  assert (Hbuf : currentCell st2 = []) by now rewrite E.
  assert (H : shifted (cells st2) st2 init).
  { unfold shifted. rewrite Hbuf, E. simpl. rewrite app_nil_r.
    repeat split; auto; discriminate. }
  rewrite (shifted_result (cells st2) post st2 H), Hbuf.
  change (flush []) with (@nil cell). now rewrite app_nil_r.
Qed.

Lemma closed_fence_boundary_witness :
  splitIntoNotebookCells (doc ["a"; "```python"; "x"; "```"; ""; "b"])
  = splitIntoNotebookCells (doc ["a"; "```python"; "x"; "```"])
    ++ splitIntoNotebookCells (doc [""; "b"]).
Proof.
  apply (closed_fence_boundary _ _ _
           [js "a"] [js "x"] [js ""; js "b"] (js "```python") (js "```"));
    try reflexivity.
  constructor; [reflexivity|constructor].
Defined.

(* ================================================================== *)
(** ** The number of cells *)
(* ================================================================== *)

Lemma length_flush (b : jsstring) :
  List.length (flush b) = if isBlank b then 0%nat else 1%nat.
Proof.
  unfold flush. rewrite truthy_trim_isBlank. now destruct (isBlank b).
Qed.

Lemma isBlank_keepBlank (b : jsstring) : isBlank (keepBlank b) = true.
Proof.
  unfold keepBlank. rewrite truthy_trim_isBlank.
  destruct (isBlank b) eqn:E; [exact E|reflexivity].
Qed.

Lemma weight_step (st : state) (l : jsstring) :
  (weight (step st l) <= S (weight st))%nat.
Proof.
  unfold weight.
  destruct (startsWith l fence) eqn:Hf;
    [destruct (inCodeBlock st) eqn:Hin
    |destruct (negb (inCodeBlock st) && startsWith l hash) eqn:Hh].
  - rewrite (step_close st l Hf Hin). cbn [cells currentCell inCodeBlock].
    rewrite length_app. change (isBlank []) with true. simpl.
    destruct (isBlank (currentCell st)); lia.
  - rewrite (step_open st l Hf Hin). cbn [cells currentCell inCodeBlock].
    rewrite length_app, length_flush, isBlank_keepBlank.
    destruct (isBlank (currentCell st)); lia.
  - apply andb_true_iff in Hh as [Hin Hh]. apply negb_true_iff in Hin.
    rewrite (step_header st l Hh Hin). cbn [cells currentCell inCodeBlock].
    rewrite length_app, length_flush, Hin.
    destruct (isBlank (currentCell st)), (isBlank (l ++ [LF])); lia.
  - rewrite (step_plain st l Hf).
    2:{ apply andb_false_iff in Hh as [Hh|Hh]; [left|now right].
        now apply negb_false_iff in Hh. }
    cbn [cells currentCell inCodeBlock]. rewrite isBlank_app.
    destruct (isBlank (currentCell st)), (isBlank (l ++ [LF])),
      (inCodeBlock st); simpl; lia.
Qed.

Lemma weight_scan (lines : list jsstring) (st : state) :
  (weight (scan lines st) <= weight st + List.length lines)%nat.
Proof.
  revert st. induction lines as [|l lines IH]; intros st; simpl; [lia|].
  specialize (IH (step st l)). pose proof (weight_step st l). lia.
Qed.

(** X8: the result never has more cells than the document has lines (the
    pieces of its split at line feeds). *)
Theorem cells_at_most_lines (text : jsstring) :
  (List.length (splitIntoNotebookCells text)
   <= List.length (split_nl text))%nat.
Proof.
  unfold splitIntoNotebookCells.
  pose proof (weight_scan (split_nl text) init) as H.
  unfold weight in H. rewrite length_app, length_flush.
  change (weight init) with 0%nat in H.
  destruct (isBlank (currentCell (scan (split_nl text) init))),
    (inCodeBlock (scan (split_nl text) init)); simpl in H; lia.
Qed.

(* ================================================================== *)
(** ** White space around the tag of a fence *)
(* ================================================================== *)

Section TagTrim.

Lemma trimStart_ws_app (a x : jsstring) :
  forallb isWhiteSpace a = true -> trimStart (a ++ x) = trimStart x.
Proof.
  induction a as [|c a IH]; simpl; [reflexivity|].
  intros H. apply andb_true_iff in H as [-> H]. auto.
Qed.

Lemma trimStart_app_not_blank (t b : jsstring) :
  forallb isWhiteSpace t = false -> trimStart (t ++ b) = trimStart t ++ b.
Proof.
  induction t as [|c t IH]; simpl; [discriminate|].
  destruct (isWhiteSpace c); simpl; [exact IH|reflexivity].
Qed.

Lemma trimEnd_app_ws (x b : jsstring) :
  forallb isWhiteSpace b = true -> trimEnd (x ++ b) = trimEnd x.
Proof.
  intros H. unfold trimEnd. rewrite rev_app_distr, trimStart_ws_app; auto.
  rewrite forallb_forall in *. intros c Hc. apply H. now apply in_rev.
Qed.

Lemma trim_ws_app (a t b : jsstring) :
  forallb isWhiteSpace a = true -> forallb isWhiteSpace b = true ->
  trim (a ++ t ++ b) = trim t.
Proof.
  intros Ha Hb. unfold trim. rewrite (trimStart_ws_app a _ Ha).
  destruct (forallb isWhiteSpace t) eqn:Ht.
  - rewrite (trimStart_blank t Ht), (trimStart_ws_app t b Ht).
    now rewrite (trimStart_blank b Hb).
  - rewrite (trimStart_app_not_blank t b Ht). now apply trimEnd_app_ws.
Qed.

End TagTrim.

(** X9: white space between the three backticks and the tag, and after the
    tag (a carriage return left by a CRLF line ending, for one), plays no
    part: the tag recorded from the opening line is the trimmed tag, so
    [python] surrounded by white space is recorded as [python]. *)
Theorem tag_ignores_white_space (st : state) (a t b : jsstring) :
  forallb isWhiteSpace a = true -> forallb isWhiteSpace b = true ->
  inCodeBlock st = false ->
  codeBlockLang (step st (fence ++ a ++ t ++ b)) = trim t
  /\ (t = python -> codeBlockLang (step st (fence ++ a ++ t ++ b)) = python).
Proof.
  intros Ha Hb Hin.
  assert (H : codeBlockLang (step st (fence ++ a ++ t ++ b)) = trim t).
  { rewrite (step_open st (fence ++ a ++ t ++ b) eq_refl Hin).
    simpl. now apply trim_ws_app. }
  split; [exact H|]. intros ->. rewrite H. reflexivity.
Qed.

Lemma tag_ignores_white_space_witness :
  codeBlockLang (step init (fence ++ js "  " ++ python ++ [13])) = trim python
  /\ (python = python ->
      codeBlockLang (step init (fence ++ js "  " ++ python ++ [13])) = python).
Proof.
  apply (tag_ignores_white_space init (js "  ") python [13]); reflexivity.
Defined.

(* ================================================================== *)
(** ** The content array and the buffer *)
(* ================================================================== *)

Lemma length_split_nl (b : jsstring) :
  List.length (split_nl b) = S (count_occ N.eq_dec b LF).
Proof.
  induction b as [|c b IH]; [reflexivity|].
  destruct (c =? LF) eqn:Hc.
  - apply N.eqb_eq in Hc. subst c. simpl. now rewrite IH.
  - destruct (split_nl_cons c b Hc) as (l & ls & E1 & E2).
    rewrite E2. rewrite E1 in IH. simpl in IH |- *. rewrite IH.
    apply N.eqb_neq in Hc. destruct (N.eq_dec c LF); [contradiction|].
    reflexivity.
Qed.

(** X10: for every buffer, the array built by
    [split('\n').map(line => line + '\n')] has one element more than the
    buffer has line feeds, and its elements put together are the buffer
    followed by one line feed. *)
Theorem sourceLines_round_trip (b : jsstring) :
  List.concat (sourceLines b) = b ++ [LF]
  /\ List.length (sourceLines b) = S (count_occ N.eq_dec b LF).
Proof.
  split; [apply joinLines_split_nl|].
  unfold sourceLines. rewrite length_map. apply length_split_nl.
Qed.

(* ================================================================== *)
(** ** The name of the output file and the run of the script *)
(* ================================================================== *)

Section Script.

Lemma skipn_length_app (stem s : jsstring) :
  skipn (List.length (stem ++ s) - List.length s) (stem ++ s) = s
  /\ firstn (List.length (stem ++ s) - List.length s) (stem ++ s) = stem.
Proof.
  rewrite length_app.
  replace (List.length stem + List.length s - List.length s)%nat
    with (List.length stem + 0)%nat by lia.
  rewrite skipn_app, firstn_app_2. simpl.
  rewrite Nat.add_0_r, Nat.sub_diag, skipn_all, app_nil_r. now split.
Qed.

Lemma endsWithMd_spec (f : jsstring) :
  endsWithMd f = true <-> exists stem, f = stem ++ js ".md".
Proof.
  unfold endsWithMd. rewrite strictEq_eq. split.
  - intros H. exists (firstn (List.length f - 3) f).
    rewrite <- H. symmetry. apply firstn_skipn.
  - intros (stem & ->).
    exact (proj1 (skipn_length_app stem (js ".md"))).
Qed.

Lemma replaceMdSuffix_md (stem : jsstring) :
  replaceMdSuffix (stem ++ js ".md") = stem ++ js ".ipynb".
Proof.
  unfold replaceMdSuffix.
  rewrite (proj2 (endsWithMd_spec _) (ex_intro _ stem eq_refl)).
  pose proof (proj2 (skipn_length_app stem (js ".md"))) as H.
  change (List.length (js ".md")) with 3%nat in H. now rewrite H.
Qed.

Lemma replaceMdSuffix_other (f : jsstring) :
  (forall stem, f <> stem ++ js ".md") -> replaceMdSuffix f = f.
Proof.
  intros H. unfold replaceMdSuffix.
  destruct (endsWithMd f) eqn:E; [|reflexivity].
  apply endsWithMd_spec in E as (stem & E). now destruct (H stem).
Qed.

End Script.

(** X11: the default name of the output file: a name [stem ++ ".md"]
    becomes [stem ++ ".ipynb"], and a name that does not end with [.md] is
    left as it is. *)
Theorem default_output_name (f : jsstring) :
  (forall stem, f = stem ++ js ".md" ->
                replaceMdSuffix f = stem ++ js ".ipynb")
  /\ ((forall stem, f <> stem ++ js ".md") -> replaceMdSuffix f = f).
Proof.
  split.
  - intros stem ->. apply replaceMdSuffix_md.
  - apply replaceMdSuffix_other.
Qed.

Lemma default_output_name_witness :
  replaceMdSuffix (js "notes.md") = js "notes" ++ js ".ipynb"
  /\ replaceMdSuffix (js "notes.txt") = js "notes.txt".
Proof.
  split.
  - exact (proj1 (default_output_name (js "notes.md")) (js "notes") eq_refl).
  - apply (proj2 (default_output_name (js "notes.txt"))).
    intros stem H. apply (f_equal (@rev N)) in H.
    rewrite rev_app_distr in H. vm_compute in H. discriminate H.
Defined.

(** X12: run with an input file alone whose name does not end with [.md],
    the script writes the notebook to the input file itself: when the file
    exists and the calls of [fs] return, the output name is the input
    name. *)
Theorem run_overwrites_input (w : world) (node script inputFile text : jsstring) :
  (forall stem, inputFile <> stem ++ js ".md") ->
  existsSync w inputFile = true ->
  readFileSync w inputFile = Some text ->
  writeFileSync w inputFile
    (stringify w (notebookOf (splitIntoNotebookCells text))) = true ->
  main w [node; script; inputFile]
  = Converted inputFile
      (stringify w (notebookOf (splitIntoNotebookCells text)))
      (js "Successfully converted '" ++ inputFile ++ js "' to '"
       ++ inputFile ++ js "'").
Proof.
  intros Hmd He Hr Hw. unfold main. simpl.
  rewrite (replaceMdSuffix_other inputFile Hmd), He, Hr. simpl.
  now rewrite Hw.
Qed.

Lemma run_overwrites_input_witness :
  main sampleWorld [js "node"; js "md-to-ipynb.js"; js "notes.txt"]
  = Converted (js "notes.txt")
      (stringify sampleWorld
         (notebookOf (splitIntoNotebookCells (doc ["# T"; "text"]))))
      (js "Successfully converted '" ++ js "notes.txt" ++ js "' to '"
       ++ js "notes.txt" ++ js "'").
Proof.
  apply (run_overwrites_input sampleWorld (js "node") (js "md-to-ipynb.js")
           (js "notes.txt") (doc ["# T"; "text"])).
  - intros stem H. apply (f_equal (@rev N)) in H.
    rewrite rev_app_distr in H. vm_compute in H. discriminate H.
  - reflexivity.
  - reflexivity.
  - reflexivity.
Defined.

(** X13: the script ends with a file written and the success message only
    when it was given an input file name, that file exists and was read;
    the file written is then the explicit output name when there is one and
    the default name otherwise, and its content is the serialisation of the
    notebook whose cells are [splitIntoNotebookCells] of the text read. *)
Theorem run_converted (w : world) (argv : list jsstring)
    (f c m : jsstring) :
  main w argv = Converted f c m ->
  (3 <= List.length argv)%nat
  /\ existsSync w (nth 2 argv []) = true
  /\ (exists text,
        readFileSync w (nth 2 argv []) = Some text
        /\ c = stringify w (notebookOf (splitIntoNotebookCells text)))
  /\ writeFileSync w f c = true
  /\ f = (if Nat.ltb 3 (List.length argv) then nth 3 argv []
          else replaceMdSuffix (nth 2 argv [])).
Proof.
  unfold main.
  destruct (Nat.ltb (List.length argv) 3) eqn:Hlen; [discriminate|].
  apply Nat.ltb_ge in Hlen.
  destruct (existsSync w (nth 2 argv [])) eqn:He; [|discriminate]. simpl.
  destruct (readFileSync w (nth 2 argv [])) as [text|] eqn:Hr;
    [|discriminate].
  match goal with |- (if ?b then _ else _) = _ -> _ =>
    destruct b eqn:Hw; [|discriminate]
  end.
  intros [= <- <- _].
  split; [exact Hlen|]. split; [reflexivity|].
  split; [now exists text|]. split; [exact Hw|reflexivity].
Qed.

Lemma run_converted_witness :
  (3 <= List.length [js "node"; js "md-to-ipynb.js"; js "notes.txt"])%nat
  /\ existsSync sampleWorld (js "notes.txt") = true
  /\ (exists text,
        readFileSync sampleWorld (js "notes.txt") = Some text
        /\ stringify sampleWorld
             (notebookOf (splitIntoNotebookCells (doc ["# T"; "text"])))
           = stringify sampleWorld
               (notebookOf (splitIntoNotebookCells text)))
  /\ writeFileSync sampleWorld (js "notes.txt")
       (stringify sampleWorld
          (notebookOf (splitIntoNotebookCells (doc ["# T"; "text"]))))
     = true
  /\ js "notes.txt" = js "notes.txt".
Proof.
  apply (run_converted sampleWorld
           [js "node"; js "md-to-ipynb.js"; js "notes.txt"]
           (js "notes.txt")
           (stringify sampleWorld
              (notebookOf (splitIntoNotebookCells (doc ["# T"; "text"]))))
           (js "Successfully converted 'notes.txt' to 'notes.txt'")).
  reflexivity.
Defined.

(* ================================================================== *)
(** ** Header lines inside a fence *)
(* ================================================================== *)

(** X14: a document that is one fenced python block gives exactly one code
    cell, whose content is the body lines, each with a line feed, and one
    more element ["\n"]; the body lines can begin with [#] (comments of the
    code): inside a fence they are no header boundary. *)
Theorem python_block_one_code_cell (text : jsstring)
    (body : list jsstring) (o c : jsstring) :
  split_nl text = o :: body ++ [c] ->
  startsWith o fence = true ->
  trim (slice 3 o) = python ->
  Forall notFence body ->
  startsWith c fence = true ->
  splitIntoNotebookCells text = [mkCell code (map addNl body ++ [[LF]])].
Proof.
  intros Hs Ho Htag Hb Hc.
  assert (Hl : Forall nlFree body).
  { pose proof (split_nl_lines text) as H. rewrite Hs in H.
    inversion H as [|? ? _ H']; subst. now apply Forall_app in H'. }
  unfold splitIntoNotebookCells.
  rewrite Hs, (scan_block init o c body eq_refl Ho Hb Hc).
  rewrite (step_open init o Ho eq_refl), Htag. cbn [cells currentCell].
  unfold closeCell. change (strictEq python python) with true.
  change (currentCell init) with (@nil N). change (cells init) with (@nil cell).
  change (flush []) with (@nil cell). change (keepBlank []) with (@nil N).
  cbn [app]. now rewrite (sourceLines_joinLines body Hl).
Qed.

Lemma python_block_one_code_cell_witness :
  splitIntoNotebookCells (doc ["```python"; "# a comment"; "x = 1"; "```"])
  = [mkCell code (map addNl [js "# a comment"; js "x = 1"] ++ [[LF]])].
Proof.
  apply (python_block_one_code_cell
           (doc ["```python"; "# a comment"; "x = 1"; "```"])
           [js "# a comment"; js "x = 1"] (js "```python") (js "```")).
  - reflexivity.
  - reflexivity.
  - reflexivity.
  - repeat constructor.
  - reflexivity.
Defined.
